(** * The conversion engine of image.py, embedded in Rocq

    The engine is the part of [image.py] between [remove_background] and
    [convert_file], together with the batch loop [convert_files] that
    calls it.  Python exceptions are values of [result]; the file system
    and the logger are an explicit [world] threaded through a small
    state-and-exception monad; Pillow, PyMuPDF and [base64] are an
    interface ([Libraries]) the engine is parameterised over. *)

From stdpp Require Import base option list strings pretty gmap.
From Stdlib Require Import ZArith Lia Ascii.

Local Open Scope string_scope.
Local Open Scope list_scope.
Local Open Scope Z_scope.

(** ** Strings *)

(** [str.lower()] and [str.upper()] on the ASCII letters; the bytes of
    the characters outside ASCII are left as they are.  Python also maps
    letters outside ASCII: [lower] sends none of them to a letter of the
    extensions [convert_file] compares against, and no statement below
    depends on what [upper] returns. *)
Definition ascii_lower (c : ascii) : ascii :=
  let n := Ascii.N_of_ascii c in
  if ((65 <=? n) && (n <=? 90))%N then Ascii.ascii_of_N (n + 32) else c.


Fixpoint lower (s : string) : string :=
  match s with
  | EmptyString => EmptyString
  | String c s' => String (ascii_lower c) (lower s')
  end.


(** [x in [a, b, ...]] on strings. *)
Definition str_in (x : string) (l : list string) : bool :=
  existsb (String.eqb x) l.

(** ** Exceptions and results *)

(** A raised exception: its class and [str(e)].  Every exception of the
    engine is a subclass of [Exception], so [except Exception] catches
    all of them. *)
Record exn := Exception { exn_class : string; exn_str : string }.

Definition ValueError (msg : string) : exn := Exception "ValueError" msg.
Definition IndexError (msg : string) : exn := Exception "IndexError" msg.
Definition OSError (msg : string) : exn := Exception "OSError" msg.
Definition FileNotFoundError (msg : string) : exn :=
  Exception "FileNotFoundError" msg.
Definition SameFileError (msg : string) : exn :=
  Exception "SameFileError" msg.

Inductive result (A : Type) : Type :=
| Ok (a : A)
| Raise (e : exn).
Arguments Ok {A} a.
Arguments Raise {A} e.

Definition is_Ok {A} (r : result A) : bool :=
  match r with Ok _ => true | Raise _ => false end.

(** ** Paths, the file system and the log *)

(** A [pathlib.Path] of a source file, through the accessors the engine
    uses: [parent], [stem] and [suffix]; [name] is [stem + suffix]. *)
Record Path := { parent : string; stem : string; suffix : string }.

Definition name (p : Path) : string := stem p +:+ suffix p.

(** A file of the file system: its directory and its name. *)
Definition fskey : Type := string * string.

Definition path_key (p : Path) : fskey := (parent p, name p).

(** [output_folder / file_name]. *)
Definition joinpath (folder file_name : string) : fskey := (folder, file_name).

(** [str(path)]. *)
Definition key_str (k : fskey) : string := k.1 +:+ "/" +:+ k.2.
Definition path_str (p : Path) : string := key_str (path_key p).

Inductive level := DEBUG | INFO | ERROR.

(** [files]: the content of every existing file; [dirs]: the directories
    that exist and can be written to; [log]: the records of [logger],
    oldest first. *)
Record world := World {
  files : gmap fskey string;
  dirs : gset string;
  log : list (level * string)
}.

(** ** The monad of the engine: state and exceptions *)

Definition M (A : Type) : Type := world → result A * world.

Definition ret {A} (a : A) : M A := λ w, (Ok a, w).

Definition raise {A} (e : exn) : M A := λ w, (Raise e, w).

Definition bind {A B} (m : M A) (k : A → M B) : M B :=
  λ w, match m w with
       | (Ok a, w') => k a w'
       | (Raise e, w') => (Raise e, w')
       end.

(** [try: body  except Exception as e: handler(e)]. *)
Definition try_except {A} (body : M A) (handler : exn → M A) : M A :=
  λ w, match body w with
       | (Ok a, w') => (Ok a, w')
       | (Raise e, w') => handler e w'
       end.

(** A pure computation that may raise, run inside [M]. *)
Definition lift {A} (r : result A) : M A := λ w, (r, w).

Declare Scope engine_scope.
Delimit Scope engine_scope with engine.
Notation "x <- m ;; k" := (bind m (λ x, k))
  (at level 100, m at next level, right associativity) : engine_scope.
Notation "m ;;; k" := (bind m (λ _, k))
  (at level 100, right associativity) : engine_scope.
Local Open Scope engine_scope.

Definition logger (lv : level) (msg : string) : M unit :=
  λ w, (Ok (), World (files w) (dirs w) (log w ++ [(lv, msg)])).

(** Reading a whole file. *)
Definition read_file (k : fskey) : M string :=
  λ w, match files w !! k with
       | Some content => (Ok content, w)
       | None => (Raise (FileNotFoundError ("No such file or directory: "
                                          +:+ key_str k)), w)
       end.

(** Creating or truncating a file and writing [content] to it: it fails
    when the directory is missing or not writable. *)
Definition write_file (k : fskey) (content : string) : M unit :=
  λ w, if decide (k.1 ∈ dirs w)
       then (Ok (), World (<[k := content]> (files w)) (dirs w) (log w))
       else (Raise (OSError ("Cannot write: " +:+ key_str k)), w).

(** [shutil.copy(src, dst)]: refuses to copy a file onto itself, reads the
    source, then writes the destination. *)
Definition shutil_copy (src dst : fskey) : M unit :=
  λ w, if decide (src = dst ∧ is_Some (files w !! src))
       then (Raise (SameFileError (key_str src +:+ " and " +:+ key_str dst
                                  +:+ " are the same file")), w)
       else (content <- read_file src ;; write_file dst content) w.

(** ** Images and the imaging libraries *)

(** A decoded [PIL.Image]: its mode, its size, the [dpi] entry of
    [img.info] when there is one, and [getdata()], one tuple of band
    values per pixel. *)
Record image := Image {
  img_mode : string;
  img_size : Z * Z;
  img_dpi : option (Z * Z);
  img_data : list (list Z)
}.

(** The keyword arguments of [Image.save]. *)
Inductive save_params :=
| NoParams
| Quality (q : Z)
| Resolution (dpi : Z).

(** What the engine calls in Pillow, PyMuPDF and [base64]. *)
Class Libraries := {
  page : Type;
  pixmap : Type;
  (** [Image.open] on the bytes of a file *)
  pil_open : string → result image;
  (** [img.convert(mode)] *)
  pil_convert : string → image → image;
  (** the encoder behind [img.save(fp, format, **params)] *)
  pil_encode : string → save_params → image → result string;
  (** [fitz.open] on the bytes of a file: the pages of the document *)
  fitz_open : string → result (list page);
  (** [page.get_pixmap(matrix=fitz.Matrix(zoom, zoom))] *)
  get_pixmap : Z → page → result pixmap;
  (** [pix.tobytes(format)] *)
  tobytes : string → pixmap → result string;
  (** [base64.b64encode(b).decode('utf-8')] *)
  b64encode : string → string
}.

(** [img.putdata(newData)]. *)
Definition putdata (img : image) (newData : list (list Z)) : image :=
  Image (img_mode img) (img_size img) (img_dpi img) newData.

(** [item[i]] on a tuple. *)
Definition getitem (item : list Z) (i : nat) : result Z :=
  match item !! i with
  | Some v => Ok v
  | None => Raise (IndexError "tuple index out of range")
  end.

Definition rbind {A B} (r : result A) (k : A → result B) : result B :=
  match r with
  | Ok a => k a
  | Raise e => Raise e
  end.

(** [abs(item[i] - c) < tolerance]. *)
Definition close_to (item : list Z) (i : nat) (c tolerance : Z) : result bool :=
  rbind (getitem item i) (λ v, Ok (Z.abs (v - c) <? tolerance)).

(** [a and b], with [b] evaluated only when [a] is true. *)
Definition rand (a : result bool) (b : result bool) : result bool :=
  rbind a (λ x, if x then b else Ok false).

(** The body of the loop of [remove_background] for one [item]: the
    tuple appended to [newData]. *)
Definition keyed_item (bg_color : Z * Z * Z) (tolerance : Z) (item : list Z)
  : result (list Z) :=
  let '(c0, c1, c2) := bg_color in
  rbind (rand (close_to item 0 c0 tolerance)
          (rand (close_to item 1 c1 tolerance)
                (close_to item 2 c2 tolerance)))
    (λ near,
      if near
      then rbind (getitem item 0) (λ r,
           rbind (getitem item 1) (λ g,
           rbind (getitem item 2) (λ b, Ok [r; g; b; 0])))
      else Ok item).

(** [for item in datas: ... newData.append(...)]. *)
Fixpoint keying_loop (bg_color : Z * Z * Z) (tolerance : Z)
    (datas : list (list Z)) (newData : list (list Z)) : result (list (list Z)) :=
  match datas with
  | [] => Ok newData
  | item :: rest =>
      rbind (keyed_item bg_color tolerance item) (λ px,
        keying_loop bg_color tolerance rest (newData ++ [px]))
  end.

Definition white : Z * Z * Z := (255, 255, 255).

Section Engine.

Context `{Lib : Libraries}.

Definition remove_background (img : image) (bg_color : Z * Z * Z)
    (tolerance : Z) : result image :=
  let img := pil_convert "RGBA" img in
  let datas := img_data img in
  rbind (keying_loop bg_color tolerance datas [])
    (λ newData, Ok (putdata img newData)).

(** The text of the SVG file written by [save_as_svg]. *)
Definition dq : string := String (ascii_of_nat 34) EmptyString.
Definition nl : string := String (ascii_of_nat 10) EmptyString.

Definition svg_document (width height : Z) (data : string) : string :=
  "<?xml version=" +:+ dq +:+ "1.0" +:+ dq +:+ " encoding=" +:+ dq +:+ "UTF-8"
    +:+ dq +:+ " standalone=" +:+ dq +:+ "no" +:+ dq +:+ "?>" +:+ nl
  +:+ "<svg xmlns=" +:+ dq +:+ "http://www.w3.org/2000/svg" +:+ dq
    +:+ " width=" +:+ dq +:+ pretty width +:+ dq
    +:+ " height=" +:+ dq +:+ pretty height +:+ dq +:+ ">" +:+ nl
  +:+ "  <image href=" +:+ dq +:+ "data:image/png;base64," +:+ data +:+ dq
    +:+ " width=" +:+ dq +:+ pretty width +:+ dq
    +:+ " height=" +:+ dq +:+ pretty height +:+ dq +:+ " />" +:+ nl
  +:+ "</svg>" +:+ nl.

Definition save_as_svg (img : image) (output_path : fskey) : M unit :=
  img <- lift (remove_background img white 30) ;;
  png <- lift (pil_encode "PNG" NoParams img) ;;
  let data := b64encode png in
  let '(width, height) := img_size img in
  let svg_str := svg_document width height data in
  try_except
    (write_file output_path svg_str ;;;
     logger DEBUG ("SVG saved to " +:+ key_str output_path))
    (λ e, logger ERROR ("Error saving SVG: " +:+ exn_str e)).

(** [Image.open(file_path)]. *)
Definition Image_open (k : fskey) : M image :=
  bytes <- read_file k ;; lift (pil_open bytes).

(** [img.save(out_path, output_format, **params)]: the image is encoded,
    then the file is written. *)
Definition Image_save (img : image) (out_path : fskey) (output_format : string)
    (params : save_params) : M unit :=
  bytes <- lift (pil_encode output_format params img) ;;
  write_file out_path bytes.

(** [img.info.get("dpi", (300, 300))[0]]. *)
Definition info_dpi (img : image) : Z := (default (300, 300) (img_dpi img)).1.

(** *** convert_image_file *)

(** [if output_format in ["JPEG", "JPEG2000", "HEIC"] and img.mode != "RGB":
       img = img.convert("RGB")]. *)
Definition image_coercion (output_format : string) (img : image) : image :=
  if str_in output_format ["JPEG"; "JPEG2000"; "HEIC"]
     && negb (String.eqb (img_mode img) "RGB")
  then pil_convert "RGB" img
  else img.

(** The [if]/[elif] chain on [output_format] that saves [img]. *)
Definition image_save_chain (output_format : string) (img : image)
    (out_path : fskey) : M unit :=
  if String.eqb output_format "SVG" then save_as_svg img out_path
  else if String.eqb output_format "JPEG"
  then Image_save img out_path output_format (Quality 100)
  else if String.eqb output_format "PDF"
  then let dpi := info_dpi img in
       Image_save img out_path output_format (Resolution dpi)
  else Image_save img out_path output_format NoParams.

Definition convert_image_file (file_path : Path)
    (output_folder output_format ext_out : string) : M unit :=
  let base_name := stem file_path in
  let out_path := joinpath output_folder (base_name +:+ ext_out) in
  (img <- Image_open (path_key file_path) ;;
   let img := image_coercion output_format img in
   image_save_chain output_format img out_path) ;;;
  logger INFO ("Converted image " +:+ path_str file_path +:+ " to "
               +:+ key_str out_path).

(** *** convert_pdf_file *)

(** [if output_format in ["JPEG", "JPEG2000"] and page_img.mode != "RGB":
       page_img = page_img.convert("RGB")]. *)
Definition page_coercion (output_format : string) (page_img : image) : image :=
  if str_in output_format ["JPEG"; "JPEG2000"]
     && negb (String.eqb (img_mode page_img) "RGB")
  then pil_convert "RGB" page_img
  else page_img.

(** The [if]/[elif] chain on [output_format] that saves [page_img]. *)
Definition page_save_chain (output_format : string) (page_img : image)
    (out_path : fskey) : M unit :=
  if String.eqb output_format "SVG" then save_as_svg page_img out_path
  else if String.eqb output_format "JPEG"
  then Image_save page_img out_path output_format (Quality 100)
  else if String.eqb output_format "PDF"
  then let dpi := info_dpi page_img in
       Image_save page_img out_path output_format (Resolution dpi)
  else Image_save page_img out_path output_format NoParams.

Definition zoom : Z := 3.

(** [f"{base_name}_page{i + 1}{ext_out}"]. *)
Definition page_name (base_name : string) (i : nat) (ext_out : string) : string :=
  base_name +:+ "_page" +:+ pretty (i + 1)%nat +:+ ext_out.

(** The body of the [try] for page [i] (counted from 0), up to and
    including [logger.info]; [count += 1] follows it in [pdf_loop]. *)
Definition convert_pdf_page (base_name output_folder output_format
    ext_out : string) (i : nat) (pg : page) : M unit :=
  pix <- lift (get_pixmap zoom pg) ;;
  img_data <- lift (tobytes "png" pix) ;;
  page_img <- lift (pil_open img_data) ;;
  let page_img := page_coercion output_format page_img in
  let out_name := page_name base_name i ext_out in
  let out_path := joinpath output_folder out_name in
  page_save_chain output_format page_img out_path ;;;
  logger INFO ("Converted PDF page " +:+ pretty (i + 1)%nat +:+ " to "
               +:+ key_str out_path).

(** [for i, page in enumerate(doc): try: ... count += 1  except ...]. *)
Fixpoint pdf_loop (file_path : Path) (output_folder output_format
    ext_out : string) (i : nat) (doc : list page) (count : Z) : M Z :=
  match doc with
  | [] => ret count
  | pg :: rest =>
      count <- try_except
        (convert_pdf_page (stem file_path) output_folder output_format
           ext_out i pg ;;;
         ret (count + 1))
        (λ e, logger ERROR ("Error converting PDF page "
                +:+ pretty (i + 1)%nat +:+ " of " +:+ path_str file_path
                +:+ ": " +:+ exn_str e) ;;;
              ret count) ;;
      pdf_loop file_path output_folder output_format ext_out (S i) rest count
  end.

(** [fitz.open(str(file_path))]. *)
Definition open_pdf (file_path : Path) : M (list page) :=
  bytes <- read_file (path_key file_path) ;; lift (fitz_open bytes).

Definition convert_pdf_file (file_path : Path)
    (output_folder output_format ext_out : string) : M Z :=
  λ w, match open_pdf file_path w with
       | (Raise e, w') =>
           (logger ERROR ("Error opening PDF " +:+ path_str file_path
              +:+ ": " +:+ exn_str e) ;;;
            ret 0) w'
       | (Ok doc, w') =>
           pdf_loop file_path output_folder output_format ext_out 0 doc 0 w'
       end.

(** *** convert_document_file *)

Definition convert_document_file (file_path : Path)
    (output_folder output_format ext_out : string) : M unit :=
  let base_name := stem file_path in
  let out_path := joinpath output_folder (base_name +:+ ext_out) in
  try_except
    (shutil_copy (path_key file_path) out_path ;;;
     logger INFO ("Copied document " +:+ path_str file_path +:+ " to "
                  +:+ key_str out_path))
    (λ e, logger ERROR ("Error copying document " +:+ path_str file_path
            +:+ ": " +:+ exn_str e)).

(** *** convert_file *)

Definition FORMAT_MAPPING : gmap string (string * string) :=
  list_to_map [
    ("JPEG", ("JPEG", ".jpg"));
    ("JPG", ("JPEG", ".jpg"));
    ("JPGE", ("JPEG", ".jpg"));
    ("JFIF", ("JPEG", ".jfif"));
    ("PNG", ("PNG", ".png"));
    ("BMP", ("BMP", ".bmp"));
    ("GIF", ("GIF", ".gif"));
    ("TIFF", ("TIFF", ".tiff"));
    ("WEBP", ("WEBP", ".webp"));
    ("ICO", ("ICO", ".ico"));
    ("PPM", ("PPM", ".ppm"));
    ("TGA", ("TGA", ".tga"));
    ("JPEG2000", ("JPEG2000", ".jp2"));
    ("PDF", ("PDF", ".pdf"));
    ("SVG", ("SVG", ".svg"));
    ("HEIC", ("HEIC", ".heic"));
    ("EXCEL", ("EXCEL", ".xlsx"));
    ("WORD", ("WORD", ".docx"));
    ("CSV", ("CSV", ".csv"))
  ].

(** [FORMAT_MAPPING.get(selected_format, ("JPEG", ".jpg"))]. *)
Definition resolve (selected_format : string) : string * string :=
  default ("JPEG", ".jpg") (FORMAT_MAPPING !! selected_format).

Definition document_exts : list string :=
  [".doc"; ".docx"; ".xlsx"; ".xls"; ".csv"].

Definition document_formats : list string := ["EXCEL"; "WORD"; "CSV"].

Definition convert_file (file_path : Path)
    (output_folder selected_format : string) : M Z :=
  let '(output_format, ext_out) := resolve selected_format in
  let ext_in := lower (suffix file_path) in
  if String.eqb ext_in ".pdf"
  then convert_pdf_file file_path output_folder output_format ext_out
  else if str_in ext_in document_exts
  then
    if negb (str_in output_format document_formats)
    then raise (ValueError ("Cannot convert document file "
           +:+ path_str file_path +:+ " to " +:+ output_format
           +:+ " format."))
    else convert_document_file file_path output_folder output_format ext_out ;;;
         ret 1
  else
    if str_in output_format document_formats
    then raise (ValueError ("Cannot convert image file "
           +:+ path_str file_path +:+ " to " +:+ output_format
           +:+ " format."))
    else convert_image_file file_path output_folder output_format ext_out ;;;
         ret 1.

(** *** convert_files: the batch loop of the application *)



End Engine.

(** ** A small concrete library, to run the engine on examples *)

Module Sample.

(** Image files hold the name of a mode; the pixels decoded from them are
    fixed: one near-white pixel and one grey pixel. *)
Definition sample_pixels (bands : nat) : list (list Z) :=
  [take bands [250; 250; 250; 255]; take bands [200; 200; 200; 255]].

Definition sample_open (bytes : string) : result image :=
  if String.eqb bytes "RGB" then Ok (Image "RGB" (2, 1) None (sample_pixels 3))
  else if String.eqb bytes "RGBA"
  then Ok (Image "RGBA" (2, 1) (Some (72, 72)) (sample_pixels 4))
  else Raise (Exception "UnidentifiedImageError" "cannot identify image file").

(** Conversion between [RGB] and [RGBA]: an opaque alpha band is added or
    the alpha band is dropped. *)
Definition sample_convert (mode : string) (img : image) : image :=
  let bands := if String.eqb mode "RGBA" then 4%nat else 3%nat in
  Image mode (img_size img) (img_dpi img)
    (map (λ px, take bands (px ++ [255])) (img_data img)).

Definition sample_encoders : list string :=
  ["JPEG"; "PNG"; "BMP"; "GIF"; "TIFF"; "WEBP"; "ICO"; "PPM"; "TGA";
   "JPEG2000"; "PDF"; "HEIC"].

(** Unknown formats have no encoder; the encoders without alpha refuse
    images that are not [RGB]. *)
Definition sample_encode (format : string) (params : save_params)
    (img : image) : result string :=
  if negb (str_in format sample_encoders)
  then Raise (Exception "KeyError" format)
  else if str_in format ["JPEG"; "JPEG2000"; "HEIC"]
          && negb (String.eqb (img_mode img) "RGB")
  then Raise (OSError ("cannot write mode " +:+ img_mode img +:+ " as "
                       +:+ format))
  else Ok (format +:+ ":" +:+ img_mode img).

(** A PDF file is [%PDF] followed by one line per page; a page holds the
    bytes of its rendering, and the page [corrupt] cannot be rendered. *)
Fixpoint lines (cur s : string) : list string :=
  match s with
  | EmptyString => []
  | String c s' =>
      if Ascii.eqb c (ascii_of_nat 10) then cur :: lines EmptyString s'
      else lines (cur +:+ String c EmptyString) s'
  end.

Definition sample_fitz_open (bytes : string) : result (list string) :=
  if String.prefix "%PDF" bytes
  then Ok (lines EmptyString (String.substring 4 (String.length bytes - 4) bytes))
  else Raise (Exception "FileDataError" "cannot open broken document").

Definition sample_get_pixmap (z : Z) (pg : string) : result string :=
  if String.eqb pg "corrupt"
  then Raise (Exception "RuntimeError" "cannot render page")
  else Ok pg.

Definition lib : Libraries := {|
  page := string;
  pixmap := string;
  pil_open := sample_open;
  pil_convert := sample_convert;
  pil_encode := sample_encode;
  fitz_open := sample_fitz_open;
  get_pixmap := sample_get_pixmap;
  tobytes := λ _ pix, Ok pix;
  b64encode := λ b, b
|}.

(** A world with a picture, a PDF of ten pages whose fifth page cannot
    be rendered, and a spreadsheet; [out] is writable, [missing] is not. *)
Definition ten_pages : string :=
  "%PDF" +:+ "RGB" +:+ nl +:+ "RGB" +:+ nl +:+ "RGB" +:+ nl +:+ "RGB" +:+ nl
  +:+ "corrupt" +:+ nl +:+ "RGB" +:+ nl +:+ "RGB" +:+ nl +:+ "RGB" +:+ nl
  +:+ "RGB" +:+ nl +:+ "RGB" +:+ nl.

Definition w0 : world := {|
  files := list_to_map [
    (("in", "photo.png"), "RGBA");
    (("in", "scan.PDF"), ten_pages);
    (("in", "alpha.pdf"), "%PDF" +:+ "RGBA" +:+ nl);
    (("in", "table.csv"), "a,b" +:+ nl +:+ "1,2" +:+ nl)
  ];
  dirs := {["in"; "out"]};
  log := []
|}.

Definition photo_png : Path := {| parent := "in"; stem := "photo"; suffix := ".png" |}.
Definition scan_pdf : Path := {| parent := "in"; stem := "scan"; suffix := ".PDF" |}.
Definition table_csv : Path := {| parent := "in"; stem := "table"; suffix := ".csv" |}.
Definition report_docx : Path := {| parent := "in"; stem := "report"; suffix := ".docx" |}.

End Sample.

(** ** Tactics *)

Ltac unfold_monad :=
  unfold bind, ret, raise, lift, try_except, logger, write_file, read_file
    in *.

(** Case analysis on every scrutinee of the goal, innermost first. *)
Ltac case_scrutinee :=
  match goal with
  | |- context [match ?x with _ => _ end] =>
      lazymatch x with
      | context [match _ with _ => _ end] => fail
      | _ => destruct x eqn:?
      end
  | |- context [if ?x then _ else _] =>
      lazymatch x with
      | context [match _ with _ => _ end] => fail
      | _ => destruct x eqn:?
      end
  end.

Ltac run := unfold_monad; simpl; repeat (case_scrutinee; simpl).

(** ** Vocabulary of the statements *)

(** The test of [remove_background]: each of the three colour bands is
    strictly closer than [tolerance] to the band of [bg_color]. *)
Definition near (bg_color : Z * Z * Z) (tolerance r g b : Z) : bool :=
  (Z.abs (r - bg_color.1.1) <? tolerance)
  && (Z.abs (g - bg_color.1.2) <? tolerance)
  && (Z.abs (b - bg_color.2) <? tolerance).

Definition is_INFO (lv : level) : bool :=
  match lv with INFO => true | _ => false end.

(** The [INFO] records of a log. *)
Definition infos (l : list (level * string)) : list string :=
  omap (λ e, if is_INFO e.1 then Some e.2 else None) l.

(** The page numbers (counted from 1) of the pages of [doc] that
    [convert_pdf_page] converts without raising, when run in [w]; [i] is the
    index of the first page of [doc]. *)
Fixpoint good_pages `{Lib : Libraries} (base_name output_folder output_format
    ext_out : string) (w : world) (i : nat) (doc : list page) : list nat :=
  match doc with
  | [] => []
  | pg :: rest =>
      let later := good_pages base_name output_folder output_format ext_out
                     w (S i) rest in
      if is_Ok (convert_pdf_page base_name output_folder output_format
                  ext_out i pg w).1
      then (i + 1)%nat :: later
      else later
  end.

(** The [INFO] record of page number [n]. *)
Definition page_info (base_name output_folder ext_out : string) (n : nat)
  : string :=
  "Converted PDF page " +:+ pretty n +:+ " to "
  +:+ key_str (joinpath output_folder
                 (base_name +:+ "_page" +:+ pretty n +:+ ext_out)).

(** The [ERROR] record of page number [n] that raised [e]. *)
Definition page_error (file_path : Path) (n : nat) (e : exn) : string :=
  "Error converting PDF page " +:+ pretty n +:+ " of " +:+ path_str file_path
  +:+ ": " +:+ exn_str e.

(** The steps of [save_as_svg] that come before the file is written go
    through for [img]: background removal and the PNG encoding in memory. *)
Definition svg_encodable `{Lib : Libraries} (img : image) : Prop :=
  ∃ rgba png, remove_background img white 30 = Ok rgba
              ∧ pil_encode "PNG" NoParams rgba = Ok png.





(** ** Background removal *)

Lemma keyed_item_rgba bg_color tolerance r g b a :
  keyed_item bg_color tolerance [r; g; b; a]
  = Ok (if near bg_color tolerance r g b then [r; g; b; 0] else [r; g; b; a]).
Proof.
  destruct bg_color as [[c0 c1] c2]. unfold keyed_item, near; simpl.
  destruct (Z.abs (r - c0) <? tolerance); simpl; [|reflexivity].
  destruct (Z.abs (g - c1) <? tolerance); simpl; [|reflexivity].
  destruct (Z.abs (b - c2) <? tolerance); reflexivity.
Qed.

Lemma four_bands (px : list Z) :
  length px = 4%nat → ∃ r g b a, px = [r; g; b; a].
Proof.
  destruct px as [|r [|g [|b [|a [|? ?]]]]]; simpl; try discriminate.
  intros _. by exists r, g, b, a.
Qed.

(** The loop appends one tuple per pixel, in order, and never raises on
    tuples of four bands. *)
Lemma keying_loop_rgba bg_color tolerance datas :
  Forall (λ px, length px = 4%nat) datas →
  ∀ newData, ∃ added,
    keying_loop bg_color tolerance datas newData = Ok (newData ++ added)
    ∧ length added = length datas
    ∧ ∀ i r g b a, datas !! i = Some [r; g; b; a] →
        added !! i = Some (if near bg_color tolerance r g b
                           then [r; g; b; 0] else [r; g; b; a]).
Proof.
  induction 1 as [|px rest Hpx _ IH]; intros newData.
  - exists []. rewrite app_nil_r. by repeat split.
  - destruct (four_bands px Hpx) as (r & g & b & a & ->).
    simpl keying_loop. rewrite keyed_item_rgba. simpl rbind.
    destruct (IH (newData ++
      [if near bg_color tolerance r g b then [r; g; b; 0] else [r; g; b; a]]))
      as (added & Hloop & Hlen & Hpix).
    eexists (_ :: added). rewrite Hloop, <- app_assoc. simpl.
    repeat split; [by rewrite Hlen|].
    intros [|i] r' g' b' a' Hi; simpl in *.
    + by inversion Hi; subst.
    + by apply Hpix.
Qed.

(** ** Strings and the registry *)

Lemma str_in_elem_of (x : string) (l : list string) :
  str_in x l = true ↔ x ∈ l.
Proof.
  unfold str_in. rewrite existsb_exists. split.
  - intros (y & Hy & Heq). apply String.eqb_eq in Heq. subst.
    by apply list_elem_of_In.
  - intros Hx. exists x. split; [by apply list_elem_of_In|apply String.eqb_refl].
Qed.

Lemma str_in_not_elem_of (x : string) (l : list string) :
  str_in x l = false ↔ x ∉ l.
Proof.
  rewrite <- str_in_elem_of. destruct (str_in x l); split; congruence.
Qed.

Lemma resolve_JPEG : resolve "JPEG" = ("JPEG", ".jpg").
Proof. reflexivity. Qed.

(** ** Running the monad *)

Lemma bind_lift {A B} (r : result A) (k : A → M B) (w : world) :
  bind (lift r) k w = match r with Ok a => k a w | Raise e => (Raise e, w) end.
Proof. unfold bind, lift. by destruct r. Qed.

Lemma bind_Ok {A B} (m : M A) (k : A → M B) (w w' : world) (a : A) :
  m w = (Ok a, w') → bind m k w = k a w'.
Proof. intros Hm. unfold bind. by rewrite Hm. Qed.

Lemma bind_Raise {A B} (m : M A) (k : A → M B) (w w' : world) (e : exn) :
  m w = (Raise e, w') → bind m k w = (Raise e, w').
Proof. intros Hm. unfold bind. by rewrite Hm. Qed.


Lemma infos_app l1 l2 : infos (l1 ++ l2) = infos l1 ++ infos l2.
Proof. unfold infos. apply omap_app. Qed.

Section Proofs.

Context `{Lib : Libraries}.

(** *** What saving does to the world *)

Lemma write_file_dirs k content w : dirs (write_file k content w).2 = dirs w.
Proof. by run. Qed.

(** [save_as_svg] either raises before touching the world, or returns
    having logged one [DEBUG] or [ERROR] record. *)
Lemma save_as_svg_effect img out_path w :
  ∃ r w', save_as_svg img out_path w = (r, w')
    ∧ dirs w' = dirs w
    ∧ match r with
      | Ok _ => (∃ lv msg, log w' = log w ++ [(lv, msg)] ∧ lv ≠ INFO)
                ∧ ∀ k, is_Some (files w !! k) → is_Some (files w' !! k)
      | Raise _ => w' = w
      end.
Proof.
  unfold save_as_svg. run; eexists _, _; (split; [reflexivity|]); simpl;
    (split; [done|]); try done.
  - split; [by exists DEBUG; eexists|].
    intros k' Hk. destruct (decide (out_path = k')) as [->|Hne].
    + rewrite lookup_insert_eq. eauto.
    + by rewrite lookup_insert_ne.
  - split; [by exists ERROR; eexists|]. done.
Qed.


(** C1. [remove_background] returns the image converted to [RGBA] with
    its pixels rewritten in place: mode, size and number of pixels are
    those of the converted image; a pixel whose three colour bands are
    each strictly closer than [tolerance] to [bg_color] keeps its colour
    and gets alpha 0, and every other pixel is kept as it is, alpha
    included.  [Hbands] is what Pillow guarantees of [convert("RGBA")]:
    the tuples of [getdata()] have four bands. *)
Theorem remove_background_keys_near_pixels
    (img : image) (bg_color : Z * Z * Z) (tolerance : Z)
    (Hbands : Forall (λ px, length px = 4%nat)
                (img_data (pil_convert "RGBA" img))) :
  let rgba := pil_convert "RGBA" img in
  ∃ out,
    remove_background img bg_color tolerance = Ok out
    ∧ img_mode out = img_mode rgba
    ∧ img_size out = img_size rgba
    ∧ length (img_data out) = length (img_data rgba)
    ∧ ∀ i r g b a, img_data rgba !! i = Some [r; g; b; a] →
        img_data out !! i
        = Some (if (Z.abs (r - bg_color.1.1) <? tolerance)
                   && (Z.abs (g - bg_color.1.2) <? tolerance)
                   && (Z.abs (b - bg_color.2) <? tolerance)
                then [r; g; b; 0]
                else [r; g; b; a]).
Proof.
  intros rgba.
  destruct (keying_loop_rgba bg_color tolerance _ Hbands [])
    as (added & Hloop & Hlen & Hpix).
  exists (putdata rgba added). subst rgba.
  unfold remove_background; cbv zeta. rewrite Hloop. simpl.
  repeat split; [done|exact Hpix].
Qed.

(** C3. Resolving a format name never fails ([resolve] is a total
    function), and a name that is not a key of [FORMAT_MAPPING] resolves
    to the JPEG entry: encoder [JPEG], extension [.jpg].  [convert_file]
    with such a name is [convert_file] with the name [JPEG]. *)
Theorem resolve_unregistered_falls_back_to_jpeg (selected_format : string) :
  FORMAT_MAPPING !! selected_format = None →
  resolve selected_format = ("JPEG", ".jpg")
  ∧ resolve selected_format = resolve "JPEG"
  ∧ ∀ file_path output_folder,
      convert_file file_path output_folder selected_format
      = convert_file file_path output_folder "JPEG".
Proof.
  intros Hnone.
  assert (Hres : resolve selected_format = ("JPEG", ".jpg")).
  { unfold resolve. by rewrite Hnone. }
  split; [exact Hres|]. split; [by rewrite Hres, resolve_JPEG|].
  intros file_path output_folder. unfold convert_file.
  by rewrite Hres, resolve_JPEG.
Qed.

(** C4. A document source with a target outside the document family, and
    a raster source (neither [.pdf] nor a document extension) with a
    target of the document family, make [convert_file] raise
    [ValueError]; the world it returns is the world it was given: no
    file was read or written and nothing was logged. *)
Theorem convert_file_rejects_cross_family
    (file_path : Path) (output_folder selected_format : string) (w : world) :
  let output_format := (resolve selected_format).1 in
  let ext_in := lower (suffix file_path) in
  (ext_in ∈ document_exts ∧ output_format ∉ document_formats)
  ∨ (ext_in ≠ ".pdf" ∧ (ext_in ∉ document_exts)
     ∧ output_format ∈ document_formats) →
  ∃ msg,
    convert_file file_path output_folder selected_format w
    = (Raise (ValueError msg), w).
Proof.
  intros output_format ext_in Hcase. subst output_format ext_in.
  unfold convert_file. destruct (resolve selected_format) as [fmt ext].
  simpl in Hcase.
  destruct Hcase as [[Hdoc Hfmt]|(Hpdf & Hdoc & Hfmt)].
  - assert (String.eqb (lower (suffix file_path)) ".pdf" = false) as ->.
    { apply String.eqb_neq. intros Heq. rewrite Heq in Hdoc.
      apply str_in_elem_of in Hdoc. discriminate. }
    apply str_in_elem_of in Hdoc. apply str_in_not_elem_of in Hfmt.
    rewrite Hdoc, Hfmt. simpl. eauto.
  - apply String.eqb_neq in Hpdf. apply str_in_not_elem_of in Hdoc.
    apply str_in_elem_of in Hfmt. rewrite Hpdf, Hdoc, Hfmt. eauto.
Qed.

(** *** What converting one page does to the world *)

Lemma Image_save_effect img out_path fmt params w :
  ∃ r w', Image_save img out_path fmt params w = (r, w')
    ∧ dirs w' = dirs w
    ∧ match r with
      | Ok _ => log w' = log w ∧ is_Some (files w' !! out_path)
                ∧ ∀ k, is_Some (files w !! k) → is_Some (files w' !! k)
      | Raise _ => w' = w
      end.
Proof.
  unfold Image_save. run; eexists _, _; (split; [reflexivity|]); simpl;
    (split; [done|]); try done.
  split; [done|]. split; [rewrite lookup_insert_eq; eauto|].
  intros k' Hk. destruct (decide (out_path = k')) as [->|Hne].
  - rewrite lookup_insert_eq. eauto.
  - by rewrite lookup_insert_ne.
Qed.

Lemma page_save_chain_effect fmt img out_path w :
  ∃ r w', page_save_chain fmt img out_path w = (r, w')
    ∧ dirs w' = dirs w
    ∧ match r with
      | Ok _ => (∃ pre, log w' = log w ++ pre ∧ infos pre = [])
                ∧ (fmt ≠ "SVG" → is_Some (files w' !! out_path))
                ∧ ∀ k, is_Some (files w !! k) → is_Some (files w' !! k)
      | Raise _ => w' = w
      end.
Proof.
  unfold page_save_chain.
  destruct (String.eqb fmt "SVG") eqn:Hsvg.
  - destruct (save_as_svg_effect img out_path w) as (r & w' & -> & Hd & Hr).
    exists r, w'. split; [done|]. split; [done|].
    destruct r; [|done]. destruct Hr as [(lv & msg & Hlog & Hlv) Hfiles].
    split; [|split; [|done]].
    + exists [(lv, msg)]. split; [done|]. by destruct lv.
    + apply String.eqb_eq in Hsvg. congruence.
  - assert (Hany : ∀ params, ∃ r w',
      Image_save img out_path fmt params w = (r, w') ∧ dirs w' = dirs w
      ∧ match r with
        | Ok _ => (∃ pre, log w' = log w ++ pre ∧ infos pre = [])
                  ∧ (fmt ≠ "SVG" → is_Some (files w' !! out_path))
                  ∧ ∀ k, is_Some (files w !! k) → is_Some (files w' !! k)
        | Raise _ => w' = w
        end).
    { intros params.
      destruct (Image_save_effect img out_path fmt params w)
        as (r & w' & -> & Hd & Hr).
      exists r, w'. split; [done|]. split; [done|].
      destruct r; [|done]. destruct Hr as (Hlog & Hsome & Hfiles).
      split; [|done]. exists []. by rewrite app_nil_r. }
    repeat case_scrutinee; apply Hany.
Qed.

Lemma convert_pdf_page_effect base out fmt ext i pg w :
  ∃ r w', convert_pdf_page base out fmt ext i pg w = (r, w')
    ∧ dirs w' = dirs w
    ∧ match r with
      | Ok _ =>
          (∃ pre, log w' = log w ++ pre
                  ∧ infos pre = [page_info base out ext (i + 1)])
          ∧ (fmt ≠ "SVG" →
             is_Some (files w' !! joinpath out (page_name base i ext)))
          ∧ ∀ k, is_Some (files w !! k) → is_Some (files w' !! k)
      | Raise _ => w' = w
      end.
Proof.
  unfold convert_pdf_page.
  rewrite bind_lift. destruct (get_pixmap zoom pg) as [pix|e];
    [|by eexists _, _].
  rewrite bind_lift. destruct (tobytes "png" pix) as [bytes|e];
    [|by eexists _, _].
  rewrite bind_lift. destruct (pil_open bytes) as [page_img|e];
    [|by eexists _, _].
  cbv zeta. unfold bind at 1.
  destruct (page_save_chain_effect fmt (page_coercion fmt page_img)
              (joinpath out (page_name base i ext)) w)
    as (r & w' & -> & Hd & Hr).
  destruct r as [[]|e]; [|by eexists _, _].
  destruct Hr as ((pre & Hlog & Hpre) & Hout & Hfiles).
  eexists _, _. split; [reflexivity|]. simpl. split; [done|].
  split; [|done].
  exists (pre ++ [(INFO, page_info base out ext (i + 1))]).
  rewrite Hlog, <- app_assoc. split; [done|].
  by rewrite infos_app, Hpre.
Qed.

(** A page that cannot be rendered, or whose rendering cannot be decoded,
    raises and leaves the world as it was. *)
Lemma convert_pdf_page_render_failure base out fmt ext i pg w e :
  get_pixmap zoom pg = Raise e
  ∨ (∃ pix, get_pixmap zoom pg = Ok pix ∧ tobytes "png" pix = Raise e)
  ∨ (∃ pix bytes, get_pixmap zoom pg = Ok pix ∧ tobytes "png" pix = Ok bytes
                  ∧ pil_open bytes = Raise e) →
  convert_pdf_page base out fmt ext i pg w = (Raise e, w).
Proof.
  unfold convert_pdf_page.
  intros [Hpix|[(pix & Hpix & Hbytes)|(pix & bytes & Hpix & Hbytes & Hopen)]];
    rewrite bind_lift, Hpix; [done|..];
    rewrite bind_lift, Hbytes; [done|].
  by rewrite bind_lift, Hopen.
Qed.

(** Whether saving succeeds depends on the world through its writable
    directories only. *)
Lemma save_as_svg_result img out_path w1 w2 :
  (save_as_svg img out_path w1).1 = (save_as_svg img out_path w2).1.
Proof. unfold save_as_svg. by run. Qed.

Lemma Image_save_result img out_path fmt params w1 w2 :
  dirs w1 = dirs w2 →
  (Image_save img out_path fmt params w1).1
  = (Image_save img out_path fmt params w2).1.
Proof.
  intros Hd. unfold Image_save, bind, lift, write_file.
  destruct (pil_encode fmt params img); [|done]. rewrite Hd.
  by destruct (decide (out_path.1 ∈ dirs w2)).
Qed.

Lemma page_save_chain_result fmt img out_path w1 w2 :
  dirs w1 = dirs w2 →
  (page_save_chain fmt img out_path w1).1
  = (page_save_chain fmt img out_path w2).1.
Proof.
  intros Hd. unfold page_save_chain.
  repeat case_scrutinee;
    [apply save_as_svg_result|by apply Image_save_result..].
Qed.

Lemma convert_pdf_page_result base out fmt ext i pg w1 w2 :
  dirs w1 = dirs w2 →
  (convert_pdf_page base out fmt ext i pg w1).1
  = (convert_pdf_page base out fmt ext i pg w2).1.
Proof.
  intros Hd. unfold convert_pdf_page.
  rewrite !bind_lift. destruct (get_pixmap zoom pg); [|done].
  rewrite !bind_lift. destruct (tobytes "png" _); [|done].
  rewrite !bind_lift. destruct (pil_open _) as [img|]; [|done].
  cbv zeta. unfold bind.
  pose proof (page_save_chain_result fmt (page_coercion fmt img)
                (joinpath out (page_name base i ext)) w1 w2 Hd) as Heq.
  destruct (page_save_chain _ _ _ w1) as [[[]|] ?],
           (page_save_chain _ _ _ w2) as [[[]|] ?]; simpl in *; congruence.
Qed.

(** *** The loop over the pages *)

Lemma good_pages_bound base out fmt ext w i doc :
  (length (good_pages base out fmt ext w i doc) ≤ length doc)%nat.
Proof.
  revert i. induction doc as [|pg rest IH]; intros i; simpl; [lia|].
  specialize (IH (S i)). case_match; simpl; lia.
Qed.

(** Page [i + j] is listed under its number [i + j + 1] exactly when it
    converts. *)
Lemma good_pages_elem_of base out fmt ext w doc :
  ∀ i n, n ∈ good_pages base out fmt ext w i doc ↔
    ∃ j pg, n = (i + j + 1)%nat ∧ doc !! j = Some pg
            ∧ is_Ok (convert_pdf_page base out fmt ext (i + j) pg w).1 = true.
Proof.
  induction doc as [|pg rest IH]; intros i n; simpl.
  - split; [by intros ?%elem_of_nil|]. by intros (j & pg & _ & ? & _).
  - assert (Hrest : n ∈ good_pages base out fmt ext w (S i) rest ↔
      ∃ j pg', n = (i + S j + 1)%nat ∧ rest !! j = Some pg'
        ∧ is_Ok (convert_pdf_page base out fmt ext (i + S j) pg' w).1 = true).
    { rewrite IH. split; intros (j & pg' & -> & Hj & Hok); exists j, pg';
        (split; [lia|]); (split; [done|]);
        by replace (i + S j)%nat with (S i + j)%nat in * by lia. }
    destruct (is_Ok (convert_pdf_page base out fmt ext i pg w).1) eqn:Hok.
    + rewrite elem_of_cons, Hrest. split.
      * intros [->|(j & pg' & -> & Hj & Hok')].
        -- exists 0%nat, pg. rewrite Nat.add_0_r. by repeat split; try lia.
        -- by exists (S j), pg'.
      * intros ([|j] & pg' & -> & Hj & Hok').
        -- left. lia.
        -- right. by exists j, pg'.
    + rewrite Hrest. split.
      * intros (j & pg' & -> & Hj & Hok'). by exists (S j), pg'.
      * intros ([|j] & pg' & -> & Hj & Hok').
        -- simpl in Hj. injection Hj as <-. rewrite Nat.add_0_r in Hok'.
           congruence.
        -- by exists j, pg'.
Qed.

Lemma pdf_loop_spec file_path out fmt ext w0 doc :
  ∀ i count w, dirs w = dirs w0 →
    let good := good_pages (stem file_path) out fmt ext w0 i doc in
    ∃ w' added,
      pdf_loop file_path out fmt ext i doc count w
      = (Ok (count + Z.of_nat (length good)), w')
      ∧ dirs w' = dirs w
      ∧ log w' = log w ++ added
      ∧ infos added = map (page_info (stem file_path) out ext) good
      ∧ (∀ j pg e, doc !! j = Some pg →
           (convert_pdf_page (stem file_path) out fmt ext (i + j) pg w0).1
           = Raise e →
           (ERROR, page_error file_path (i + j + 1) e) ∈ added)
      ∧ (∀ k, is_Some (files w !! k) → is_Some (files w' !! k))
      ∧ (fmt ≠ "SVG" → ∀ n, n ∈ good →
           is_Some (files w' !! joinpath out
              (stem file_path +:+ "_page" +:+ pretty n +:+ ext))).
Proof.
  induction doc as [|pg rest IH]; intros i count w Hd good; subst good.
  - exists w, []. simpl. unfold ret. rewrite Z.add_0_r, app_nil_r.
    repeat split; try done. by intros _ n ?%elem_of_nil.
  - simpl pdf_loop. simpl good_pages.
    rewrite (convert_pdf_page_result _ _ _ _ _ _ w0 w (eq_sym Hd)).
    unfold bind at 1, try_except, bind at 1.
    destruct (convert_pdf_page_effect (stem file_path) out fmt ext i pg w)
      as (r & w1 & Hrun & Hd1 & Hr).
    pose proof (convert_pdf_page_result (stem file_path) out fmt ext i pg
                  w0 w (eq_sym Hd)) as Hsame.
    rewrite Hrun in *. simpl in Hsame.
    destruct r as [[]|e]; simpl.
    + destruct Hr as ((pre & Hlog & Hpre) & Hout & Hfiles).
      destruct (IH (S i) (count + 1) w1 (eq_trans Hd1 Hd))
        as (w' & added & Hloop & Hd' & Hlog' & Hinfos & Herr & Hfiles' & Hgood).
      exists w', (pre ++ added).
      rewrite Hloop. repeat split.
      * do 2 f_equal. lia.
      * congruence.
      * by rewrite Hlog', Hlog, app_assoc.
      * by rewrite infos_app, Hpre, Hinfos.
      * intros [|j] pg' e Hj Hraise.
        -- simpl in Hj. injection Hj as <-. rewrite Nat.add_0_r in Hraise.
           congruence.
        -- apply elem_of_app. right.
           replace (i + S j + 1)%nat with (S i + j + 1)%nat by lia.
           apply (Herr j pg' e Hj).
           by replace (S i + j)%nat with (i + S j)%nat by lia.
      * eauto.
      * intros Hsvg n [->|Hn]%elem_of_cons; [|by apply Hgood].
        apply Hfiles', Hout, Hsvg.
    + subst w1.
      set (w1 := World (files w) (dirs w) (log w ++ _)).
      destruct (IH (S i) count w1 Hd)
        as (w' & added & Hloop & Hd' & Hlog' & Hinfos & Herr & Hfiles' & Hgood).
      exists w', ((ERROR, page_error file_path (i + 1) e) :: added).
      rewrite Hloop. repeat split; try done.
      * rewrite Hlog'. subst w1. simpl. by rewrite <- app_assoc.
      * intros [|j] pg' e' Hj Hraise.
        -- simpl in Hj. injection Hj as <-. rewrite Nat.add_0_r in *.
           rewrite Hraise in Hsame. injection Hsame as ->.
           apply elem_of_cons. by left.
        -- apply elem_of_cons. right.
           replace (i + S j + 1)%nat with (S i + j + 1)%nat by lia.
           apply (Herr j pg' e' Hj).
           by replace (S i + j)%nat with (i + S j)%nat by lia.
Qed.

Lemma open_pdf_world file_path w : (open_pdf file_path w).2 = w.
Proof. unfold open_pdf. by run. Qed.

(** C2. When the PDF opens, [convert_pdf_file] returns (it never raises)
    the number of pages that [convert_pdf_page] converts without raising:
    a count between 0 and the number of pages.  Pages are taken in
    document order and numbered from 1: the [INFO] records added to the
    log are those of the converted pages, in order; every page that
    raises has its [ERROR] record, with its number, in the log; and for a
    target other than SVG every converted page [n] has its file
    [<stem>_page<n><ext>] in the output folder. *)
Theorem convert_pdf_file_isolates_pages
    (file_path : Path) (output_folder output_format ext_out : string)
    (w : world) (doc : list page) :
  (open_pdf file_path w).1 = Ok doc →
  let page_result i pg :=
    (convert_pdf_page (stem file_path) output_folder output_format ext_out
       i pg w).1 in
  let good :=
    good_pages (stem file_path) output_folder output_format ext_out w 0 doc in
  ∃ w' added,
    convert_pdf_file file_path output_folder output_format ext_out w
    = (Ok (Z.of_nat (length good)), w')
    ∧ 0 ≤ Z.of_nat (length good) ≤ Z.of_nat (length doc)
    ∧ (∀ j pg, doc !! j = Some pg →
         ((j + 1)%nat ∈ good ↔ is_Ok (page_result j pg) = true))
    ∧ log w' = log w ++ added
    ∧ infos added
      = map (page_info (stem file_path) output_folder ext_out) good
    ∧ (∀ j pg e, doc !! j = Some pg → page_result j pg = Raise e →
         (ERROR, page_error file_path (j + 1) e) ∈ added)
    ∧ (output_format ≠ "SVG" → ∀ n, n ∈ good →
         is_Some (files w' !! joinpath output_folder
            (stem file_path +:+ "_page" +:+ pretty n +:+ ext_out))).
Proof.
  intros Hopen page_result good.
  pose proof (open_pdf_world file_path w) as Hw.
  unfold convert_pdf_file.
  destruct (open_pdf file_path w) as [r w1]. simpl in *. subst r w1.
  destruct (pdf_loop_spec file_path output_folder output_format ext_out
              w doc 0%nat 0 w eq_refl)
    as (w' & added & Hloop & _ & Hlog & Hinfos & Herr & _ & Hfiles).
  exists w', added. fold good in Hloop, Hinfos, Hfiles.
  rewrite Hloop. split; [done|].
  split.
  { pose proof (good_pages_bound (stem file_path) output_folder output_format
                  ext_out w 0 doc). fold good in H. lia. }
  split.
  { intros j pg Hj. subst good page_result. rewrite good_pages_elem_of.
    split.
    - intros (j' & pg' & Hn & Hj' & Hok). simpl in Hn.
      assert (j' = j) as -> by lia. simpl in Hok. congruence.
    - intros Hok. by exists j, pg. }
  repeat split; [done..| |done].
  intros j pg e Hj Hraise. by apply (Herr j pg e).
Qed.

(** *** A PDF source with a target of the document family *)




(** *** Documents *)

Lemma document_dispatch file_path output_folder selected_format :
  lower (suffix file_path) ∈ document_exts →
  (resolve selected_format).1 ∈ document_formats →
  convert_file file_path output_folder selected_format
  = (convert_document_file file_path output_folder
       (resolve selected_format).1 (resolve selected_format).2 ;;;
     ret 1).
Proof.
  intros Hext Hfmt. unfold convert_file.
  destruct (resolve selected_format) as [fmt ext]. cbn [fst snd] in *.
  assert (String.eqb (lower (suffix file_path)) ".pdf" = false) as ->.
  { apply String.eqb_neq. intros Heq. rewrite Heq in Hext.
    apply str_in_elem_of in Hext. discriminate. }
  apply str_in_elem_of in Hext, Hfmt. by rewrite Hext, Hfmt.
Qed.

(** C7. A document source with a target of the document family, when the
    source file exists and the output folder is writable: [convert_file]
    returns 1, the file [output_folder / (stem + extension)] holds the
    bytes of the source, and no other file has changed. *)
Theorem convert_file_copies_document_verbatim
    (file_path : Path) (output_folder selected_format : string) (w : world)
    (content : string) :
  lower (suffix file_path) ∈ document_exts →
  (resolve selected_format).1 ∈ document_formats →
  files w !! path_key file_path = Some content →
  output_folder ∈ dirs w →
  let out_path :=
    joinpath output_folder (stem file_path +:+ (resolve selected_format).2) in
  ∃ w',
    convert_file file_path output_folder selected_format w = (Ok 1, w')
    ∧ files w' !! out_path = Some content
    ∧ ∀ k, k ≠ out_path → files w' !! k = files w !! k.
Proof.
  intros Hext Hfmt Hsrc Hdir out_path.
  rewrite document_dispatch by done.
  unfold convert_document_file. fold out_path.
  unfold bind at 1, try_except, bind at 1, shutil_copy.
  destruct (decide (path_key file_path = out_path
                    ∧ is_Some (files w !! path_key file_path))) as [[Heq _]|Hne].
  - simpl. eexists. split; [reflexivity|]. simpl. by rewrite <- Heq.
  - unfold bind at 1, read_file. rewrite Hsrc. unfold write_file.
    destruct (decide (out_path.1 ∈ dirs w)) as [_|Hno]; [|done].
    simpl. eexists. split; [reflexivity|]. simpl.
    split; [by rewrite lookup_insert_eq|].
    intros k Hk. by rewrite lookup_insert_ne.
Qed.

(** When the copy cannot be written, [convert_document_file] logs the
    error and returns, and [convert_file] reports one converted file. *)
Lemma convert_file_counts_failed_copy
    (file_path : Path) (output_folder selected_format : string) (w : world) :
  lower (suffix file_path) ∈ document_exts →
  (resolve selected_format).1 ∈ document_formats →
  is_Some (files w !! path_key file_path) →
  output_folder ∉ dirs w →
  ∃ msg,
    convert_file file_path output_folder selected_format w
    = (Ok 1, World (files w) (dirs w) (log w ++ [(ERROR, msg)])).
Proof.
  intros Hext Hfmt [content Hsrc] Hdir.
  rewrite document_dispatch by done.
  unfold convert_document_file.
  unfold bind at 1, try_except, bind at 1, shutil_copy.
  destruct (decide _) as [[Heq _]|Hne]; [by eexists|].
  unfold bind at 1, read_file. rewrite Hsrc. unfold write_file.
  destruct (decide _) as [Hyes|_]; [done|]. by eexists.
Qed.

(** *** SVG *)

Lemma save_as_svg_write_failure img out_path w :
  svg_encodable img →
  out_path.1 ∉ dirs w →
  ∃ msg,
    save_as_svg img out_path w
    = (Ok (), World (files w) (dirs w)
                (log w ++ [(ERROR, "Error saving SVG: " +:+ msg)])).
Proof.
  intros (rgba & png & Hrgba & Hpng) Hdir. unfold save_as_svg.
  rewrite bind_lift, Hrgba, bind_lift, Hpng.
  destruct (img_size rgba) as [width height].
  unfold try_except, bind, write_file.
  destruct (decide _) as [Hyes|_]; [done|]. by eexists.
Qed.

(** C9. When the SVG file cannot be written ([output_folder] is not
    writable) and the steps before the write go through: [save_as_svg]
    returns normally, having logged one [ERROR] record and written
    nothing; [convert_file] of a raster source to [SVG] returns 1; and a
    PDF page converted to [SVG] is counted by the loop. *)
Theorem save_as_svg_swallows_write_failure
    (output_folder : string) (w : world) :
  output_folder ∉ dirs w →
  (∀ img file_name, svg_encodable img →
     ∃ msg,
       save_as_svg img (joinpath output_folder file_name) w
       = (Ok (), World (files w) (dirs w)
                   (log w ++ [(ERROR, "Error saving SVG: " +:+ msg)])))
  ∧ (∀ file_path bytes img,
       lower (suffix file_path) ≠ ".pdf" →
       lower (suffix file_path) ∉ document_exts →
       files w !! path_key file_path = Some bytes →
       pil_open bytes = Ok img →
       svg_encodable img →
       ∃ w', convert_file file_path output_folder "SVG" w = (Ok 1, w')
             ∧ files w' = files w)
  ∧ (∀ file_path ext_out i pg pix bytes img count,
       get_pixmap zoom pg = Ok pix →
       tobytes "png" pix = Ok bytes →
       pil_open bytes = Ok img →
       svg_encodable img →
       ∃ w', pdf_loop file_path output_folder "SVG" ext_out i [pg] count w
             = (Ok (count + 1), w')
             ∧ files w' = files w).
Proof.
  intros Hdir. split; [|split].
  - intros img file_name Henc. by apply save_as_svg_write_failure.
  - intros file_path bytes img Hpdf Hdoc Hsrc Hopen Henc.
    unfold convert_file. change (resolve "SVG") with ("SVG", ".svg").
    apply String.eqb_neq in Hpdf. apply str_in_not_elem_of in Hdoc.
    rewrite Hpdf, Hdoc. simpl.
    assert (Hio : Image_open (path_key file_path) w = (Ok img, w)).
    { unfold Image_open. erewrite bind_Ok
        by (unfold read_file; rewrite Hsrc; reflexivity).
      unfold lift. by rewrite Hopen. }
    destruct (save_as_svg_write_failure img
                (joinpath output_folder (stem file_path +:+ ".svg")) w Henc Hdir)
      as (msg & Hsvg).
    unfold convert_image_file.
    erewrite bind_Ok; [|erewrite bind_Ok; [|erewrite bind_Ok by exact Hio;
      cbv zeta; change (image_coercion "SVG" img) with img; exact Hsvg]];
      [|reflexivity].
    by eexists.
  - intros file_path ext_out i pg pix bytes img count Hpix Hbytes Hopen Henc.
    destruct (save_as_svg_write_failure img
                (joinpath output_folder
                   (page_name (stem file_path) i ext_out)) w Henc Hdir)
      as (msg & Hsvg).
    assert (Hpage : ∃ w', convert_pdf_page (stem file_path) output_folder
                            "SVG" ext_out i pg w = (Ok (), w')
                          ∧ files w' = files w).
    { unfold convert_pdf_page.
      rewrite bind_lift, Hpix, bind_lift, Hbytes, bind_lift, Hopen. cbv zeta.
      change (page_coercion "SVG" img) with img.
      erewrite bind_Ok by exact Hsvg. by eexists. }
    destruct Hpage as (w1 & Hpage & Hfiles).
    simpl. erewrite bind_Ok;
      [|unfold try_except; erewrite bind_Ok by exact Hpage; reflexivity].
    by eexists.
Qed.

(** *** The batch loop *)



(** *** Mode coercion in the two converters *)

Lemma page_save_chain_is_image_save_chain fmt img out_path :
  page_save_chain fmt img out_path = image_save_chain fmt img out_path.
Proof. reflexivity. Qed.

Lemma page_coercion_is_image_coercion fmt img :
  fmt ≠ "HEIC" → page_coercion fmt img = image_coercion fmt img.
Proof.
  intros Hfmt. unfold page_coercion, image_coercion, str_in. simpl.
  apply String.eqb_neq in Hfmt. rewrite Hfmt. by rewrite !orb_false_r.
Qed.

Lemma coercion_differs_for_HEIC img :
  img_mode img ≠ "RGB" →
  page_coercion "HEIC" img = img
  ∧ image_coercion "HEIC" img = pil_convert "RGB" img.
Proof.
  intros Hmode. unfold page_coercion, image_coercion. simpl.
  apply String.eqb_neq in Hmode. by rewrite Hmode.
Qed.

End Proofs.

(** The defaults on the example of the specification: reference white,
    tolerance 30; (250,250,250) becomes transparent and (200,200,200) is
    left alone. *)
Lemma remove_background_keys_near_pixels_witness :
  Forall (λ px, length px = 4%nat)
    (img_data (@pil_convert Sample.lib "RGBA"
                 (Image "RGB" (2, 1) None (Sample.sample_pixels 3))))
  ∧ @remove_background Sample.lib
      (Image "RGB" (2, 1) None (Sample.sample_pixels 3)) white 30
    = Ok (Image "RGBA" (2, 1) None [[250; 250; 250; 0]; [200; 200; 200; 255]]).
Proof.
  assert (Hb : Forall (λ px, length px = 4%nat)
    (img_data (@pil_convert Sample.lib "RGBA"
                 (Image "RGB" (2, 1) None (Sample.sample_pixels 3))))).
  { repeat constructor. }
  split; [exact Hb|].
  destruct (@remove_background_keys_near_pixels Sample.lib _ white 30 Hb)
    as (out & Hout & _).
  rewrite Hout. vm_compute in Hout. exact (eq_sym Hout).
Defined.

Lemma resolve_unregistered_falls_back_to_jpeg_witness :
  FORMAT_MAPPING !! "RAW" = None
  ∧ resolve "RAW" = ("JPEG", ".jpg")
  ∧ (@convert_file Sample.lib Sample.photo_png "out" "RAW" Sample.w0).1 = Ok 1
  ∧ files (@convert_file Sample.lib Sample.photo_png "out" "RAW" Sample.w0).2
      !! ("out", "photo.jpg") = Some "JPEG:RGB".
Proof.
  assert (Hnone : FORMAT_MAPPING !! "RAW" = None) by reflexivity.
  destruct (@resolve_unregistered_falls_back_to_jpeg Sample.lib "RAW" Hnone)
    as (Hres & _ & Hconv).
  split; [exact Hnone|]. split; [exact Hres|].
  rewrite Hconv. split; vm_compute; reflexivity.
Defined.

Lemma convert_file_rejects_cross_family_witness :
  (∃ msg, @convert_file Sample.lib Sample.photo_png "out" "EXCEL" Sample.w0
          = (Raise (ValueError msg), Sample.w0))
  ∧ (∃ msg, @convert_file Sample.lib Sample.report_docx "out" "JPEG" Sample.w0
            = (Raise (ValueError msg), Sample.w0)).
Proof.
  split.
  - apply (@convert_file_rejects_cross_family Sample.lib). right.
    split; [discriminate|].
    split; [by apply str_in_not_elem_of|by apply str_in_elem_of].
  - apply (@convert_file_rejects_cross_family Sample.lib). left.
    split; [by apply str_in_elem_of|by apply str_in_not_elem_of].
Defined.

(** The example of the specification: ten pages, the fifth cannot be
    rendered; nine pages are converted, nothing is raised, and the log
    has page 5 among the errors and the other pages among the successes. *)
Lemma convert_pdf_file_isolates_pages_witness :
  (@open_pdf Sample.lib Sample.scan_pdf Sample.w0).1
  = Ok ["RGB"; "RGB"; "RGB"; "RGB"; "corrupt"; "RGB"; "RGB"; "RGB"; "RGB"; "RGB"]
  ∧ @good_pages Sample.lib "scan" "out" "PNG" ".png" Sample.w0 0
      ["RGB"; "RGB"; "RGB"; "RGB"; "corrupt"; "RGB"; "RGB"; "RGB"; "RGB"; "RGB"]
    = [1; 2; 3; 4; 6; 7; 8; 9; 10]%nat
  ∧ (@convert_pdf_file Sample.lib Sample.scan_pdf "out" "PNG" ".png"
       Sample.w0).1 = Ok 9
  ∧ log (@convert_pdf_file Sample.lib Sample.scan_pdf "out" "PNG" ".png"
           Sample.w0).2
    = [(INFO, "Converted PDF page 1 to out/scan_page1.png");
       (INFO, "Converted PDF page 2 to out/scan_page2.png");
       (INFO, "Converted PDF page 3 to out/scan_page3.png");
       (INFO, "Converted PDF page 4 to out/scan_page4.png");
       (ERROR, "Error converting PDF page 5 of in/scan.PDF: cannot render page");
       (INFO, "Converted PDF page 6 to out/scan_page6.png");
       (INFO, "Converted PDF page 7 to out/scan_page7.png");
       (INFO, "Converted PDF page 8 to out/scan_page8.png");
       (INFO, "Converted PDF page 9 to out/scan_page9.png");
       (INFO, "Converted PDF page 10 to out/scan_page10.png")].
Proof.
  assert (Hopen : (@open_pdf Sample.lib Sample.scan_pdf Sample.w0).1
    = Ok ["RGB"; "RGB"; "RGB"; "RGB"; "corrupt"; "RGB"; "RGB"; "RGB"; "RGB";
          "RGB"]) by (vm_compute; reflexivity).
  split; [exact Hopen|].
  assert (Hgood : @good_pages Sample.lib "scan" "out" "PNG" ".png" Sample.w0 0
      ["RGB"; "RGB"; "RGB"; "RGB"; "corrupt"; "RGB"; "RGB"; "RGB"; "RGB"; "RGB"]
    = [1; 2; 3; 4; 6; 7; 8; 9; 10]%nat) by (vm_compute; reflexivity).
  split; [exact Hgood|].
  split; [|vm_compute; reflexivity].
  destruct (@convert_pdf_file_isolates_pages Sample.lib Sample.scan_pdf "out"
              "PNG" ".png" Sample.w0 _ Hopen) as (w' & added & Hrun & _).
  rewrite Hrun. cbv [fst]. change (stem Sample.scan_pdf) with "scan".
  by rewrite Hgood.
Defined.


Lemma convert_file_copies_document_verbatim_witness :
  ∃ w',
    @convert_file Sample.lib Sample.table_csv "out" "CSV" Sample.w0 = (Ok 1, w')
    ∧ files w' !! ("out", "table.csv")
      = files Sample.w0 !! ("in", "table.csv")
    ∧ ∀ k, k ≠ ("out", "table.csv") → files w' !! k = files Sample.w0 !! k.
Proof.
  apply (@convert_file_copies_document_verbatim Sample.lib Sample.table_csv
           "out" "CSV" Sample.w0).
  - by apply str_in_elem_of.
  - by apply str_in_elem_of.
  - reflexivity.
  - vm_compute. set_solver.
Defined.

(** C8, at a spreadsheet copied to a folder that does not exist: the copy
    raises, [convert_document_file] logs the error, and [convert_file]
    returns 1 with no file written. *)
Theorem convert_file_reports_failed_copy_as_converted :
  @convert_file Sample.lib Sample.table_csv "missing" "CSV" Sample.w0
  = (Ok 1,
     World (files Sample.w0) (dirs Sample.w0)
       [(ERROR, "Error copying document in/table.csv: "
                +:+ "Cannot write: missing/table.csv")]).
Proof. vm_compute. reflexivity. Qed.

Lemma sample_svg_encodable :
  @svg_encodable Sample.lib
    (Image "RGBA" (2, 1) (Some (72, 72)) (Sample.sample_pixels 4)).
Proof. eexists _, _. split; vm_compute; reflexivity. Qed.

Lemma save_as_svg_swallows_write_failure_witness :
  ∃ w', @convert_file Sample.lib Sample.photo_png "missing" "SVG" Sample.w0
        = (Ok 1, w')
        ∧ files w' = files Sample.w0.
Proof.
  destruct (@save_as_svg_swallows_write_failure Sample.lib "missing" Sample.w0)
    as (_ & Himage & _).
  - vm_compute. set_solver.
  - apply (Himage Sample.photo_png "RGBA"
             (Image "RGBA" (2, 1) (Some (72, 72)) (Sample.sample_pixels 4))).
    + discriminate.
    + by apply str_in_not_elem_of.
    + reflexivity.
    + reflexivity.
    + exact sample_svg_encodable.
Defined.


